(** * The list component of [packages/list/src/mwc-list-base.ts]

    A shallow embedding of the [ListBase] web component: the component
    instance and the part of the page it reads and writes are one record
    that is passed through every method; DOM nodes are references into a
    heap of node properties, so that two references to one element see the
    same attributes, classes and [selected] flag.  Code that can fault
    (a property read on [undefined] or [null]) returns a [Completion]. *)

From Stdlib Require Import ZArith.
From stdpp Require Import base option list gmap strings.

Set Warnings "-register-all".

Open Scope Z_scope.

(** ** JavaScript values the component handles *)

(** A reference to a DOM node (an event target): object identity. *)
Abbreviation NodeRef := nat (only parsing).

(** [MDCListIndex = number | number[]].  The scalar alternative holds an
    integer: the source tells the two alternatives apart with
    [Number.isInteger]. *)
Inductive MDCListIndex :=
| Index (i : Z)
| Indices (l : list Z).

(** [arr[i]]: the element at an integer position, [None] ([undefined])
    when the position is negative or past the end. *)
Definition js_get {A : Type} (arr : list A) (i : Z) : option A :=
  if decide (0 ≤ i) then arr !! Z.to_nat i else None.

(** [Array.prototype.indexOf] with strict equality on references: the first
    position holding [x], scanning from position [k] upwards; [-1] if none. *)
Fixpoint indexOf_from (k : Z) (arr : list NodeRef) (x : NodeRef) : Z :=
  match arr with
  | [] => -1
  | y :: rest => if decide (y = x) then k else indexOf_from (k + 1) rest x
  end.

Definition indexOf (arr : list NodeRef) (x : NodeRef) : Z :=
  indexOf_from 0 arr x.

(** A JavaScript string is truthy unless it is empty; [null] is falsy. *)
Definition truthy_string (s : option string) : bool :=
  match s with
  | Some s => negb (String.eqb s "")
  | None => false
  end.

(** ** Faults *)

Inductive JSError := TypeError.

Inductive Completion (A : Type) :=
| Normal (a : A)
| Throw (e : JSError).
Arguments Normal {A} a.
Arguments Throw {A} e.

(** ** DOM nodes *)

(** The properties of a node that the component reads or writes.
    [isElement] is [nodeType === Node.ELEMENT_NODE] (what the imported
    helper [isNodeElement] tests); [instanceofListItemBase] is the class
    test [node instanceof ListItemBase]. *)
Record Node := mkNode {
  isElement : bool;
  instanceofListItemBase : bool;
  attributes : gmap string string;
  classList : list string;
  selected : bool;
  disabled : bool;
}.

(** A node nobody has written to: not an element, no attributes. *)
Definition inertNode : Node :=
  mkNode false false ∅ [] false false.

#[global] Instance Node_inhabited : Inhabited Node := populate inertNode.

(** The light-DOM subtree under a node, in document order. *)
Inductive DomTree :=
| DomNode (ref : NodeRef) (childNodes : list DomTree).

Definition treeRef (t : DomTree) : NodeRef :=
  match t with DomNode r _ => r end.

(** All proper descendants of a node, in document (pre-)order. *)
Fixpoint descendants (t : DomTree) : list NodeRef :=
  match t with
  | DomNode _ kids =>
      (fix go (ks : list DomTree) : list NodeRef :=
         match ks with
         | [] => []
         | k :: ks' => treeRef k :: descendants k ++ go ks'
         end) kids
  end.

(** ** Events *)

(** An event delivered to a handler.  The three flags are what
    [preventDefault], [stopPropagation] and [stopImmediatePropagation]
    set; [hasCheckboxOrRadio] is [evt.detail.hasCheckboxOrRadio] of a
    [CustomEvent<RequestSelectedDetail>]. *)
Record Event := mkEvent {
  composedPath : list NodeRef;
  target : NodeRef;
  hasCheckboxOrRadio : bool;
  defaultPrevented : bool;
  propagationStopped : bool;
  immediatePropagationStopped : bool;
}.

Definition preventDefault (evt : Event) : Event :=
  mkEvent (composedPath evt) (target evt) (hasCheckboxOrRadio evt)
          true (propagationStopped evt) (immediatePropagationStopped evt).

Definition stopPropagation (evt : Event) : Event :=
  mkEvent (composedPath evt) (target evt) (hasCheckboxOrRadio evt)
          (defaultPrevented evt) true (immediatePropagationStopped evt).

Definition stopImmediatePropagation (evt : Event) : Event :=
  mkEvent (composedPath evt) (target evt) (hasCheckboxOrRadio evt)
          (defaultPrevented evt) true true.

(** A [CustomEvent] the component creates: its type, the two init flags
    and [detail.index]. *)
Record CustomEvent := mkCustomEvent {
  ev_type : string;
  ev_bubbles : bool;
  ev_composed : bool;
  ev_detail_index : MDCListIndex;
}.

(** ** The foundation *)

(** The calls the component makes on its foundation. *)
Inductive FoundationCall :=
| call_setSingleSelection (value : bool)
| call_setUseActivatedClass (value : bool)
| call_setWrapFocus (value : bool)
| call_setSelectedIndex (index : MDCListIndex)
| call_handleFocusIn (evt : Event) (index : Z)
| call_handleFocusOut (evt : Event) (index : Z)
| call_handleKeydown (evt : Event) (isRootListItem : bool) (index : Z)
| call_handleClick (index : Z) (toggleCheckbox : bool)
| call_layout.

(** Modelled from the spec: the foundation is the "external
    interaction-logic object (third-party UI library)" of the glossary;
    its class [MDCListFoundation] is imported from [@material/list] and is
    not part of this repository.  The model keeps the three settings that
    its setters write, the selected index that [getSelectedIndex] reports
    and [setSelectedIndex] stores, and the sequence of calls it has
    received.  What the foundation does inside the [handle...] calls (its
    own bookkeeping and its calls back into the adapter) is outside the
    model: such a call is recorded and nothing else. *)
Module Foundation.

Record t := mk {
  wrapFocus_ : bool;
  isSingleSelectionList_ : bool;
  useActivatedClass_ : bool;
  selectedIndex_ : MDCListIndex;
  received : list FoundationCall;
}.

Definition record (c : FoundationCall) (f : t) : t :=
  mk (wrapFocus_ f) (isSingleSelectionList_ f) (useActivatedClass_ f)
     (selectedIndex_ f) (received f ++ [c]).

Definition setWrapFocus (value : bool) (f : t) : t :=
  record (call_setWrapFocus value)
    (mk value (isSingleSelectionList_ f) (useActivatedClass_ f)
        (selectedIndex_ f) (received f)).

Definition setSingleSelection (value : bool) (f : t) : t :=
  record (call_setSingleSelection value)
    (mk (wrapFocus_ f) value (useActivatedClass_ f)
        (selectedIndex_ f) (received f)).

Definition setUseActivatedClass (value : bool) (f : t) : t :=
  record (call_setUseActivatedClass value)
    (mk (wrapFocus_ f) (isSingleSelectionList_ f) value
        (selectedIndex_ f) (received f)).

Definition setSelectedIndex (index : MDCListIndex) (f : t) : t :=
  record (call_setSelectedIndex index)
    (mk (wrapFocus_ f) (isSingleSelectionList_ f) (useActivatedClass_ f)
        index (received f)).

Definition getSelectedIndex (f : t) : MDCListIndex := selectedIndex_ f.

Definition handleFocusIn (evt : Event) (index : Z) (f : t) : t :=
  record (call_handleFocusIn evt index) f.

Definition handleFocusOut (evt : Event) (index : Z) (f : t) : t :=
  record (call_handleFocusOut evt index) f.

Definition handleKeydown (evt : Event) (isRootListItem : bool) (index : Z)
    (f : t) : t :=
  record (call_handleKeydown evt isRootListItem index) f.

Definition handleClick (index : Z) (toggleCheckbox : bool) (f : t) : t :=
  record (call_handleClick index toggleCheckbox) f.

Definition layout (f : t) : t := record call_layout f.

End Foundation.

(** ** The component instance *)

(** The fields of [ListBase], followed by the part of the page the
    component reads and writes: the heap of node properties, what the
    browser reports about focus, the events dispatched on the host element
    and the [focus()] calls made on items.
    - [mdcRoot] is the [@query('.mdc-list')] getter: [None] is [null].
    - [slotElement] is the [@query('slot')] getter; a slot is represented
      by [assignedNodes({flatten: true})], each node with its subtree.
    - [deepActiveElementPath] is the result of the imported helper of that
      name; [rootActiveElement] is [mdcRoot.getRootNode().activeElement];
      [containsFocus] is [doesElementContainFocus(this)]. *)
Record ListBase := mkListBase {
  mdcFoundation : option Foundation.t;
  mdcRoot : option NodeRef;
  slotElement : option (list DomTree);
  selectable : bool;
  activatable : bool;
  wrapFocus : bool;
  itemRoles : option string;
  items_ : list NodeRef;
  dom : gmap nat Node;
  deepActiveElementPath : list NodeRef;
  rootActiveElement : option NodeRef;
  containsFocus : bool;
  dispatched : list CustomEvent;
  focusCalls : list NodeRef;
}.

Definition items (this : ListBase) : list NodeRef := items_ this.

(** The properties of the node behind a reference. *)
Definition node (this : ListBase) (r : NodeRef) : Node := dom this !!! r.

(** *** Field updates *)

Definition set_mdcFoundation (f : option Foundation.t) (this : ListBase)
    : ListBase :=
  mkListBase f (mdcRoot this) (slotElement this) (selectable this)
    (activatable this) (wrapFocus this) (itemRoles this) (items_ this)
    (dom this) (deepActiveElementPath this) (rootActiveElement this)
    (containsFocus this) (dispatched this) (focusCalls this).

Definition set_selectable (v : bool) (this : ListBase) : ListBase :=
  mkListBase (mdcFoundation this) (mdcRoot this) (slotElement this) v
    (activatable this) (wrapFocus this) (itemRoles this) (items_ this)
    (dom this) (deepActiveElementPath this) (rootActiveElement this)
    (containsFocus this) (dispatched this) (focusCalls this).

Definition set_activatable (v : bool) (this : ListBase) : ListBase :=
  mkListBase (mdcFoundation this) (mdcRoot this) (slotElement this)
    (selectable this) v (wrapFocus this) (itemRoles this) (items_ this)
    (dom this) (deepActiveElementPath this) (rootActiveElement this)
    (containsFocus this) (dispatched this) (focusCalls this).

Definition set_wrapFocus (v : bool) (this : ListBase) : ListBase :=
  mkListBase (mdcFoundation this) (mdcRoot this) (slotElement this)
    (selectable this) (activatable this) v (itemRoles this) (items_ this)
    (dom this) (deepActiveElementPath this) (rootActiveElement this)
    (containsFocus this) (dispatched this) (focusCalls this).

Definition set_items_ (l : list NodeRef) (this : ListBase) : ListBase :=
  mkListBase (mdcFoundation this) (mdcRoot this) (slotElement this)
    (selectable this) (activatable this) (wrapFocus this) (itemRoles this) l
    (dom this) (deepActiveElementPath this) (rootActiveElement this)
    (containsFocus this) (dispatched this) (focusCalls this).

Definition set_dom (d : gmap nat Node) (this : ListBase) : ListBase :=
  mkListBase (mdcFoundation this) (mdcRoot this) (slotElement this)
    (selectable this) (activatable this) (wrapFocus this) (itemRoles this)
    (items_ this) d (deepActiveElementPath this) (rootActiveElement this)
    (containsFocus this) (dispatched this) (focusCalls this).

Definition set_dispatched (l : list CustomEvent) (this : ListBase)
    : ListBase :=
  mkListBase (mdcFoundation this) (mdcRoot this) (slotElement this)
    (selectable this) (activatable this) (wrapFocus this) (itemRoles this)
    (items_ this) (dom this) (deepActiveElementPath this)
    (rootActiveElement this) (containsFocus this) l (focusCalls this).

Definition set_focusCalls (l : list NodeRef) (this : ListBase) : ListBase :=
  mkListBase (mdcFoundation this) (mdcRoot this) (slotElement this)
    (selectable this) (activatable this) (wrapFocus this) (itemRoles this)
    (items_ this) (dom this) (deepActiveElementPath this)
    (rootActiveElement this) (containsFocus this) (dispatched this) l.

(** Write to the node behind a reference. *)
Definition update_node (r : NodeRef) (f : Node -> Node) (this : ListBase)
    : ListBase :=
  set_dom (<[r := f (node this r)]> (dom this)) this.

(** *** Element operations *)

Definition hasAttribute (n : Node) (name : string) : bool :=
  match attributes n !! name with
  | Some _ => true
  | None => false
  end.

(** [getAttribute]: [None] is [null]. *)
Definition getAttribute (n : Node) (name : string) : option string :=
  attributes n !! name.

Definition node_setAttribute (name val : string) (n : Node) : Node :=
  mkNode (isElement n) (instanceofListItemBase n)
         (<[name := val]> (attributes n)) (classList n) (selected n)
         (disabled n).

Definition node_removeAttribute (name : string) (n : Node) : Node :=
  mkNode (isElement n) (instanceofListItemBase n)
         (delete name (attributes n)) (classList n) (selected n)
         (disabled n).

Definition classList_contains (cl : list string) (className : string) : bool :=
  bool_decide (className ∈ cl).

Definition node_classList_add (className : string) (n : Node) : Node :=
  mkNode (isElement n) (instanceofListItemBase n) (attributes n)
         (if classList_contains (classList n) className then classList n
          else classList n ++ [className])
         (selected n) (disabled n).

Definition node_classList_remove (className : string) (n : Node) : Node :=
  mkNode (isElement n) (instanceofListItemBase n) (attributes n)
         (filter (λ c, c ≠ className) (classList n))
         (selected n) (disabled n).

Definition node_set_selected (v : bool) (n : Node) : Node :=
  mkNode (isElement n) (instanceofListItemBase n) (attributes n)
         (classList n) v (disabled n).

Definition isNodeElement (this : ListBase) (r : NodeRef) : bool :=
  isElement (node this r).

(** [element.querySelectorAll('[' + name + ']')]: the descendant elements
    carrying the attribute, in document order. *)
Definition querySelectorAll_attr (this : ListBase) (element : DomTree)
    (name : string) : list NodeRef :=
  filter (λ r, isElement (node this r) && hasAttribute (node this r) name)
         (descendants element).

(** [this.dispatchEvent(ev)] on the host element. *)
Definition dispatchEvent (ev : CustomEvent) (this : ListBase) : ListBase :=
  set_dispatched (dispatched this ++ [ev]) this.

(** ** Methods of [ListBase] *)

(** The property observers ([@observer]): each runs with the new value
    once the property has been set. *)
Definition selectable_observer (value : bool) (this : ListBase) : ListBase :=
  match mdcFoundation this with
  | Some f =>
      set_mdcFoundation (Some (Foundation.setSingleSelection (negb value) f))
                        this
  | None => this
  end.

Definition activatable_observer (value : bool) (this : ListBase) : ListBase :=
  match mdcFoundation this with
  | Some f =>
      set_mdcFoundation (Some (Foundation.setUseActivatedClass value f)) this
  | None => this
  end.

Definition wrapFocus_observer (value : bool) (this : ListBase) : ListBase :=
  match mdcFoundation this with
  | Some f =>
      set_mdcFoundation (Some (Foundation.setWrapFocus (negb value) f)) this
  | None => this
  end.

(** Setting a flag: the assignment, then its observer. *)
Definition assign_selectable (v : bool) (this : ListBase) : ListBase :=
  selectable_observer v (set_selectable v this).

Definition assign_activatable (v : bool) (this : ListBase) : ListBase :=
  activatable_observer v (set_activatable v this).

Definition assign_wrapFocus (v : bool) (this : ListBase) : ListBase :=
  wrapFocus_observer v (set_wrapFocus v this).

Definition assignedElements (this : ListBase) : list DomTree :=
  match slotElement this with
  | Some assignedNodes =>
      filter (λ n, isNodeElement this (treeRef n) = true) assignedNodes
  | None => []
  end.

Definition selectUi (index : Z) (this : ListBase) : ListBase :=
  match js_get (items this) index with
  | Some item => update_node item (node_set_selected true) this
  | None => this
  end.

Definition deselectUi (index : Z) (this : ListBase) : ListBase :=
  match js_get (items this) index with
  | Some item => update_node item (node_set_selected false) this
  | None => this
  end.

Definition select (index : MDCListIndex) (this : ListBase) : ListBase :=
  match mdcFoundation this with
  | None => this
  | Some f =>
      let this1 :=
        set_mdcFoundation (Some (Foundation.setSelectedIndex index f)) this in
      let this2 :=
        match index with
        | Index i => selectUi i this1
        | Indices l => fold_left (λ st i, selectUi i st) l this1
        end in
      dispatchEvent (mkCustomEvent "selected" true true index) this2
  end.

(** The callback of [nodes.map] in [updateItems]: the element itself when
    it carries [mwc-list-item], else its matching descendants. *)
Definition listItemResult (this : ListBase) (element : DomTree)
    : list NodeRef :=
  if hasAttribute (node this (treeRef element)) "mwc-list-item"
  then [treeRef element]
  else querySelectorAll_attr this element "mwc-list-item".

(** The body of [this.items_.forEach((item, index) => ...)], run over the
    remaining items from position [index] on. *)
Fixpoint updateItems_forEach (rest : list NodeRef) (index : Z)
    (selectedIndicies : list Z) (this : ListBase) : list Z * ListBase :=
  match rest with
  | [] => (selectedIndicies, this)
  | item :: rest' =>
      let this1 :=
        if truthy_string (itemRoles this)
        then update_node item
               (node_setAttribute "role" (default "" (itemRoles this))) this
        else update_node item (node_removeAttribute "role") this in
      let selectedIndicies1 :=
        if selected (node this1 item)
        then selectedIndicies ++ [index]
        else selectedIndicies in
      updateItems_forEach rest' (index + 1) selectedIndicies1 this1
  end.

Definition updateItems (this : ListBase) : ListBase :=
  let nodes := assignedElements this in
  let listItems :=
    fold_left (λ listItems r, listItems ++ r)
              (map (listItemResult this) nodes) [] in
  let this1 := set_items_ listItems this in
  let '(selectedIndicies, this2) :=
    updateItems_forEach (items_ this1) 0 [] this1 in
  match selectedIndicies with
  | [] => this2
  | [index] => select (Index index) this2
  | _ => select (Indices selectedIndicies) this2
  end.

(** [get index()]. *)
Definition index (this : ListBase) : MDCListIndex :=
  match mdcFoundation this with
  | Some f => Foundation.getSelectedIndex f
  | None => Index (-1)
  end.

(** What [get selected()] returns: [null], one [items[i]] (which is
    [undefined] when there is no such position), or an array of them. *)
Inductive Selected :=
| selected_null
| selected_item (item : option NodeRef)
| selected_array (its : list (option NodeRef)).

(** [get selected()]: [Number.isInteger(index)] holds exactly on the
    scalar alternative. *)
Definition get_selected (this : ListBase) : Selected :=
  match index this with
  | Index i =>
      if decide (i = -1) then selected_null
      else selected_item (js_get (items this) i)
  | Indices l => selected_array (map (λ i, js_get (items this) i) l)
  end.

(** The [for (const pathItem of path)] loop of [getIndexOfTarget]. *)
Fixpoint getIndexOfTarget_loop (this : ListBase) (elements : list NodeRef)
    (path : list NodeRef) : Z :=
  match path with
  | [] => -1
  | pathItem :: rest =>
      let index :=
        if instanceofListItemBase (node this pathItem)
        then indexOf elements pathItem
        else -1 in
      if decide (index ≠ -1) then index
      else getIndexOfTarget_loop this elements rest
  end.

Definition getIndexOfTarget (this : ListBase) (evt : Event) : Z :=
  let elements := items this in
  let path := composedPath evt in
  getIndexOfTarget_loop this elements path.

(** *** Event handlers

    A handler receives the event and gives it back next to the new state:
    the event is a mutable object, and what the handler did to its three
    flags is visible in the event returned. *)

Definition onFocusIn (evt : Event) (this : ListBase)
    : Completion (Event * ListBase) :=
  match mdcFoundation this, mdcRoot this with
  | Some f, Some _ =>
      let index := getIndexOfTarget this evt in
      Normal (evt,
              set_mdcFoundation (Some (Foundation.handleFocusIn evt index f))
                                this)
  | _, _ => Normal (evt, this)
  end.

Definition onFocusOut (evt : Event) (this : ListBase)
    : Completion (Event * ListBase) :=
  match mdcFoundation this, mdcRoot this with
  | Some f, Some _ =>
      let index := getIndexOfTarget this evt in
      Normal (evt,
              set_mdcFoundation (Some (Foundation.handleFocusOut evt index f))
                                this)
  | _, _ => Normal (evt, this)
  end.

Definition onKeydown (evt : Event) (this : ListBase)
    : Completion (Event * ListBase) :=
  match mdcFoundation this, mdcRoot this with
  | Some f, Some _ =>
      let index := getIndexOfTarget this evt in
      let isRootListItem :=
        instanceofListItemBase (node this (target evt)) in
      Normal (evt,
              set_mdcFoundation
                (Some (Foundation.handleKeydown evt isRootListItem index f))
                this)
  | _, _ => Normal (evt, this)
  end.

Definition onRequestSelected (evt : Event) (this : ListBase)
    : Completion (Event * ListBase) :=
  match mdcFoundation this with
  | Some f =>
      let index := getIndexOfTarget this evt in
      if decide (index = -1) then Normal (evt, this)
      else
        match js_get (items this) index with
        | None => Throw TypeError  (* [element.disabled] on [undefined] *)
        | Some element =>
            if disabled (node this element) then Normal (evt, this)
            else
              let toggleCheckbox := hasCheckboxOrRadio evt in
              Normal (evt,
                      set_mdcFoundation
                        (Some (Foundation.handleClick index toggleCheckbox f))
                        this)
        end
  | None => Normal (evt, this)
  end.

(** [layout()]: the foundation is used without a test. *)
Definition layout (this : ListBase) : Completion ListBase :=
  match mdcFoundation this with
  | None => Throw TypeError  (* [this.mdcFoundation.layout()] *)
  | Some f =>
      let this1 := set_mdcFoundation (Some (Foundation.layout f)) this in
      match js_get (items this1) 0 with
      | Some first =>
          Normal (update_node first (node_setAttribute "tabIndex" "0") this1)
      | None => Normal this1
      end
  end.

Definition onSlotChange (evt : Event) (this : ListBase)
    : Completion (Event * ListBase) :=
  match layout (updateItems this) with
  | Normal this' => Normal (evt, this')
  | Throw e => Throw e
  end.

Definition onListItemConnected (e : Event) (this : ListBase)
    : Completion (Event * ListBase) :=
  let target := target e in
  let this1 :=
    if decide (indexOf (items this) target = -1) then updateItems this
    else this in
  match layout this1 with
  | Normal this' => Normal (e, this')
  | Throw err => Throw err
  end.

(** *** The template *)

(** [render]: the template's root [<ul>] with its class and listeners, and
    the listeners on the [<slot>] inside it, in template order. *)
Definition Handler : Type := Event -> ListBase -> Completion (Event * ListBase).

Record Template := mkTemplate {
  ul_class : string;
  ul_listeners : list (string * Handler);
  slot_listeners : list (string * Handler);
}.

Definition render : Template :=
  mkTemplate "mdc-list"
    [ ("keydown"%string, onKeydown);
      ("focusin"%string, onFocusIn);
      ("focusout"%string, onFocusOut);
      ("request-selected"%string, onRequestSelected) ]
    [ ("slotchange"%string, onSlotChange);
      ("list-item-rendered"%string, onListItemConnected) ].


(** ** The adapter

    [createAdapter] returns an object of callbacks closed over [this].
    Each callback is a computation on the component state that yields a
    value or faults. *)

Definition M (A : Type) : Type := ListBase -> Completion (A * ListBase).

Definition ret {A : Type} (a : A) : M A := λ this, Normal (a, this).

Definition bind {A B : Type} (m : M A) (k : A -> M B) : M B :=
  λ this,
    match m this with
    | Normal (a, this') => k a this'
    | Throw e => Throw e
    end.

Definition throw {A : Type} (e : JSError) : M A := λ _, Throw e.

Definition gets {A : Type} (f : ListBase -> A) : M A :=
  λ this, Normal (f this, this).

Definition modify (f : ListBase -> ListBase) : M unit :=
  λ this, Normal (tt, f this).

(** A property access [o.p] or method call [o.m()] on [o]: a [TypeError]
    when [o] is [undefined] or [null]. *)
Definition deref {A : Type} (o : option A) : M A :=
  match o with
  | Some a => ret a
  | None => throw TypeError
  end.

Notation "'let*' x ':=' m 'in' k" := (bind m (λ x, k))
  (at level 10, x name, m at level 100, k at level 200).
Notation "m ';;' k" := (bind m (λ _, k))
  (at level 100, k at level 200, right associativity).

Definition is_selection_class (className : string) : bool :=
  String.eqb className "mdc-list-item--selected"
  || String.eqb className "mdc-list-item--activated".

Module Adapter.

Definition getListItemCount : M Z :=
  let* root := gets mdcRoot in
  match root with
  | Some _ => let* its := gets items in ret (Z.of_nat (length its))
  | None => ret 0
  end.

(** The downward [for] loop over [activeElementPath], given the path
    in reverse. *)
Fixpoint getFocusedElementIndex_loop (this : ListBase)
    (reversedPath : list NodeRef) : Z :=
  match reversedPath with
  | [] => -1
  | activeItem :: rest =>
      if hasAttribute (node this activeItem) "mwc-list-item"
      then indexOf (items this) activeItem
      else getFocusedElementIndex_loop this rest
  end.

Definition getFocusedElementIndex : M Z :=
  let* root := gets mdcRoot in
  if negb (bool_decide (is_Some root)) then ret (-1)
  else
    let* its := gets items in
    if bool_decide (length its = 0%nat) then ret (-1)
    else
      let* activeElementPath := gets deepActiveElementPath in
      if bool_decide (length activeElementPath = 0%nat) then ret (-1)
      else
        gets (λ this,
                getFocusedElementIndex_loop this (reverse activeElementPath)).

Definition getAttributeForElementIndex (index : Z) (attr : string)
    : M (option string) :=
  let* listElement := gets mdcRoot in
  if negb (bool_decide (is_Some listElement)) then ret (Some ""%string)
  else
    let* element := gets (λ this, js_get (items this) index) in
    match element with
    | Some element => gets (λ this, getAttribute (node this element) attr)
    | None => ret (Some ""%string)
    end.

Definition setAttributeForElementIndex (index : Z) (attr val : string)
    : M unit :=
  let* root := gets mdcRoot in
  if negb (bool_decide (is_Some root)) then ret tt
  else
    let* element := gets (λ this, js_get (items this) index) in
    match element with
    | Some element => modify (update_node element (node_setAttribute attr val))
    | None => ret tt
    end.

Definition addClassForElementIndex (index : Z) (className : string)
    : M unit :=
  let* root := gets mdcRoot in
  if negb (bool_decide (is_Some root)) then ret tt
  else
    let* element := gets (λ this, js_get (items this) index) in
    match element with
    | Some element =>
        modify (update_node element (node_classList_add className));;
        if is_selection_class className then modify (selectUi index)
        else ret tt
    | None => ret tt
    end.

Definition removeClassForElementIndex (index : Z) (className : string)
    : M unit :=
  let* element := gets (λ this, js_get (items this) index) in
  (if negb (bool_decide (is_Some element))
   then ret tt  (* [this.remove;]: a property read, nothing more *)
   else ret tt);;
  let* element := deref element in
  modify (update_node element (node_classList_remove className));;
  if is_selection_class className then modify (deselectUi index)
  else ret tt.

Definition focusItemAtIndex (index : Z) : M unit :=
  let* element := gets (λ this, js_get (items this) index) in
  match element with
  | Some element =>
      let* isEl := gets (λ this, isNodeElement this element) in
      if isEl
      then modify (λ this, set_focusCalls (focusCalls this ++ [element]) this)
      else ret tt
  | None => ret tt
  end.

Definition setTabIndexForListItemChildren : M unit := ret tt.

Definition hasCheckboxAtIndex (index : Z) : M bool :=
  let* element := gets (λ this, js_get (items this) index) in
  match element with
  | Some element =>
      gets (λ this, hasAttribute (node this element) "mwc-check-list-item")
  | None => ret false
  end.

Definition hasRadioAtIndex (index : Z) : M bool :=
  let* element := gets (λ this, js_get (items this) index) in
  match element with
  | Some element =>
      gets (λ this, hasAttribute (node this element) "mwc-radio-list-item")
  | None => ret false
  end.

Definition isCheckboxCheckedAtIndex (index : Z) : M bool :=
  let* element := gets (λ this, js_get (items this) index) in
  let* hasCheckbox :=
    (let* e := deref element in
     gets (λ this, hasAttribute (node this e) "mwc-check-list-item")) in
  match element with
  | Some element =>
      gets (λ this, hasCheckbox && selected (node this element))
  | None => ret false
  end.

Definition setCheckedCheckboxOrRadioAtIndex (index : Z) (isChecked : bool)
    : M unit :=
  let* element := gets (λ this, js_get (items this) index) in
  match element with
  | Some element =>
      modify (update_node element (node_set_selected isChecked))
  | None => ret tt
  end.


Definition isFocusInsideList : M bool := gets containsFocus.

Definition isRootFocused : M bool :=
  let* mdcRoot := gets mdcRoot in
  let* root := deref mdcRoot in   (* [mdcRoot.getRootNode()] *)
  gets (λ this, bool_decide (rootActiveElement this = Some root)).

Definition listItemAtIndexHasClass (index : Z) (className : string)
    : M bool :=
  let* item := gets (λ this, js_get (items this) index) in
  match item with
  | None => ret false
  | Some item =>
      gets (λ this, classList_contains (classList (node this item)) className)
  end.

End Adapter.

(** ** Notions used in the statements *)

(** A path element counts when it is a list item (an instance of
    [ListItemBase]) and is one of the component's items. *)
Definition is_listed_item (this : ListBase) (elements : list NodeRef)
    (p : NodeRef) : Prop :=
  instanceofListItemBase (node this p) = true ∧ p ∈ elements.

#[global] Instance is_listed_item_dec this elements p :
  Decision (is_listed_item this elements p).
Proof. unfold is_listed_item. apply _. Defined.

(** The three flags of [evt'] are those of [evt]: none of
    [preventDefault], [stopPropagation], [stopImmediatePropagation] has
    been called in between. *)
Definition propagation_untouched (evt evt' : Event) : Prop :=
  defaultPrevented evt' = defaultPrevented evt
  ∧ propagationStopped evt' = propagationStopped evt
  ∧ immediatePropagationStopped evt' = immediatePropagationStopped evt.

(** The items the slot holds: each slotted element that is a list item,
    and for any other slotted element its list-item descendants, in
    order. *)
Definition slotted_list_items (this : ListBase) : list NodeRef :=
  concat (map (listItemResult this) (assignedElements this)).

(** [its[i].selected], [false] when there is no [its[i]]. *)
Definition item_selected (this : ListBase) (its : list NodeRef) (i : Z)
    : bool :=
  match js_get its i with
  | Some item => selected (node this item)
  | None => false
  end.

(** The positions of [its] whose item has [selected] true, ascending. *)
Definition selected_positions (this : ListBase) (its : list NodeRef)
    : list Z :=
  filter (λ i, item_selected this its i = true)
         (seqZ 0 (Z.of_nat (length its))).

(** The state [updateItems] is in when it reaches
    [if (selectedIndicies.length)]: [items_] rebuilt from the slot and the
    [role] attribute of every item brought in line with [itemRoles]. *)
Definition updateItems_rebuilt (this : ListBase) : ListBase :=
  let nodes := assignedElements this in
  let listItems :=
    fold_left (λ listItems r, listItems ++ r)
              (map (listItemResult this) nodes) [] in
  let this1 := set_items_ listItems this in
  (updateItems_forEach (items_ this1) 0 [] this1).2.

(** Two states agree on the [selected] flag of every node. *)
Definition same_selected (this this' : ListBase) : Prop :=
  ∀ r, selected (node this' r) = selected (node this r).

(** ** Sample pages

    Small concrete instances on which the statements below are run. *)

Definition sample_foundation : Foundation.t :=
  Foundation.mk false false false (Index (-1)) [].

Definition listItemNode (sel dis : bool) : Node :=
  mkNode true true {[ "mwc-list-item"%string := ""%string ]} [] sel dis.

Definition plainElement : Node := mkNode true false ∅ [] false false.

(** Three list items [1], [2], [3] slotted into the list whose root
    [<ul>] is node [10]; item [3] is disabled. *)
Definition sample_dom : gmap nat Node :=
  <[1%nat := listItemNode false false]>
  (<[2%nat := listItemNode false false]>
  (<[3%nat := listItemNode false true]>
  (<[10%nat := plainElement]> ∅))).

Definition sample_list : ListBase :=
  mkListBase (Some sample_foundation) (Some 10%nat)
    (Some [DomNode 1 []; DomNode 2 []; DomNode 3 []])
    false false false None [1; 2; 3]%nat sample_dom
    [] None false [] [].

(** The same list with no item slotted in. *)
Definition empty_list : ListBase :=
  mkListBase (Some sample_foundation) (Some 10%nat) (Some [])
    false false false None [] sample_dom [] None false [] [].

(** The same list before its first render: no root, no slot, no
    foundation yet. *)
Definition unrendered_list : ListBase :=
  mkListBase None None None false false false None [1; 2; 3]%nat sample_dom
    [] None false [] [].

(** A [request-selected] event fired by item [1]. *)
Definition sample_request : Event :=
  mkEvent [1; 10]%nat 1%nat false false false false.

(** A list whose foundation reports several selected positions, the last
    of them past the end of [items]. *)
Definition multi_selected_list : ListBase :=
  set_mdcFoundation
    (Some (Foundation.mk false false false (Indices [0; 2; 7]) []))
    sample_list.

(** The sample list with items [1] and [3] selected, a wrapper element
    [4] around item [3], and [itemRoles] set. *)
Definition two_selected_list : ListBase :=
  mkListBase (Some sample_foundation) (Some 10%nat)
    (Some [DomNode 1 []; DomNode 2 []; DomNode 4 [DomNode 3 []]])
    false false false (Some "option"%string) []
    (<[1%nat := listItemNode true false]>
     (<[3%nat := listItemNode true true]>
     (<[4%nat := plainElement]> sample_dom)))
    [] None false [] [].

(** ** Notions used in the further properties *)

(** Two states have the same slot, and agree on which nodes are elements
    and which carry [mwc-list-item]. *)
Definition same_markup (this this' : ListBase) : Prop :=
  slotElement this' = slotElement this
  ∧ ∀ r, isElement (node this' r) = isElement (node this r)
         ∧ hasAttribute (node this' r) "mwc-list-item"
           = hasAttribute (node this r) "mwc-list-item".

(** What [getAttribute('role')] is to return on an item once
    [updateItems] has run: [itemRoles] when it is truthy, [null] when the
    attribute has been removed. *)
Definition expected_role (this : ListBase) : option string :=
  if truthy_string (itemRoles this) then itemRoles this else None.


(** The item index a foundation call carries, if it carries one. *)
Definition call_index (c : FoundationCall) : option Z :=
  match c with
  | call_handleFocusIn _ i | call_handleFocusOut _ i
  | call_handleKeydown _ _ i | call_handleClick i _ => Some i
  | _ => None
  end.

(** [-1], or a position of [its]. *)
Definition resolved_index (its : list NodeRef) (i : Z) : Prop :=
  i = -1 ∨ 0 ≤ i < Z.of_nat (length its).

(** The sample list while item [1] has the focus, through an inner
    element [20] of its shadow tree. *)
Definition focused_list : ListBase :=
  mkListBase (Some sample_foundation) (Some 10%nat)
    (Some [DomNode 1 []; DomNode 2 []; DomNode 3 []])
    false false false None [1; 2; 3]%nat
    (<[20%nat := plainElement]> sample_dom)
    [1; 20]%nat (Some 1%nat) true [] [].

(** * Properties *)

(** ** Array lookups *)

Section indexOf.
Implicit Types (arr : list nat) (x : nat) (k : Z).

Lemma indexOf_from_range k arr x :
  indexOf_from k arr x = -1
  ∨ k ≤ indexOf_from k arr x < k + Z.of_nat (length arr).
Proof.
  revert k. induction arr as [|y rest IH]; intros k; simpl.
  - by left.
  - case_decide.
    + right. lia.
    + destruct (IH (k + 1)) as [->|?]; [by left | right; lia].
Qed.

Lemma indexOf_from_found k arr x :
  0 ≤ k → indexOf_from k arr x ≠ -1 →
  arr !! Z.to_nat (indexOf_from k arr x - k) = Some x
  ∧ ∀ j, (j < Z.to_nat (indexOf_from k arr x - k))%nat → arr !! j ≠ Some x.
Proof.
  revert k. induction arr as [|y rest IH]; intros k Hk; simpl; [done|].
  case_decide as Hy.
  - intros _. replace (k - k) with 0 by lia. subst. split; [done|].
    intros j Hj. simpl in Hj. lia.
  - intros Hne. destruct (IH (k + 1)) as [Hget Hfirst]; [lia | done |].
    destruct (indexOf_from_range (k + 1) rest x) as [?|Hr]; [done|].
    replace (Z.to_nat (indexOf_from (k + 1) rest x - k))
      with (S (Z.to_nat (indexOf_from (k + 1) rest x - (k + 1)))) by lia.
    split; [done|].
    intros [|j] Hj; simpl; [congruence | apply Hfirst; lia].
Qed.

Lemma indexOf_from_elem k arr x :
  0 ≤ k → x ∈ arr → indexOf_from k arr x ≠ -1.
Proof.
  revert k. induction arr as [|y rest IH]; intros k Hk Hin; simpl.
  - by apply not_elem_of_nil in Hin.
  - case_decide; [lia|].
    apply elem_of_cons in Hin as [->|Hin]; [done|].
    apply IH; [lia | done].
Qed.

Lemma indexOf_from_not_elem k arr x :
  x ∉ arr → indexOf_from k arr x = -1.
Proof.
  revert k. induction arr as [|y rest IH]; intros k Hin; simpl; [done|].
  apply not_elem_of_cons in Hin as [? ?].
  case_decide; [congruence | by apply IH].
Qed.

(** What [indexOf] returns when it does not return [-1]. *)
Lemma indexOf_found arr x :
  indexOf arr x ≠ -1 →
  0 ≤ indexOf arr x < Z.of_nat (length arr)
  ∧ arr !! Z.to_nat (indexOf arr x) = Some x
  ∧ ∀ j, (j < Z.to_nat (indexOf arr x))%nat → arr !! j ≠ Some x.
Proof.
  unfold indexOf. intros Hne.
  destruct (indexOf_from_range 0 arr x) as [?|Hr]; [done|].
  destruct (indexOf_from_found 0 arr x) as [Hget Hfirst]; [lia | done |].
  replace (indexOf_from 0 arr x - 0) with (indexOf_from 0 arr x)
    in Hget, Hfirst by lia.
  split; [lia | done].
Qed.

Lemma indexOf_elem arr x : x ∈ arr ↔ indexOf arr x ≠ -1.
Proof.
  split.
  - apply indexOf_from_elem. lia.
  - intros Hne. destruct (decide (x ∈ arr)) as [|Hnin]; [done|].
    by apply (indexOf_from_not_elem 0) in Hnin.
Qed.

Lemma js_get_nonneg {A : Type} (l : list A) (i : Z) :
  0 ≤ i → js_get l i = l !! Z.to_nat i.
Proof. intros. unfold js_get. by case_decide. Qed.

Lemma js_get_absent {A : Type} (l : list A) (i : Z) :
  js_get l i = None ↔ i < 0 ∨ Z.of_nat (length l) ≤ i.
Proof.
  unfold js_get. case_decide.
  - rewrite lookup_ge_None. lia.
  - split; [lia | done].
Qed.

End indexOf.

(** ** Resolving the list item of an event *)

Lemma getIndexOfTarget_loop_find this elements path :
  getIndexOfTarget_loop this elements path =
  match list_find (is_listed_item this elements) path with
  | Some (_, p) => indexOf elements p
  | None => -1
  end.
Proof.
  induction path as [|p rest IH]; simpl; [done|].
  destruct (decide (is_listed_item this elements p)) as [[Hcls Hin]|Hno].
  - rewrite Hcls. apply indexOf_elem in Hin. by case_decide.
  - assert ((if instanceofListItemBase (node this p)
             then indexOf elements p else -1) = -1) as ->.
    { destruct (instanceofListItemBase (node this p)) eqn:Hcls; [|done].
      destruct (decide (indexOf elements p = -1)) as [|Hne]; [done|].
      apply indexOf_elem in Hne. by destruct Hno. }
    case_decide; [done|]. rewrite IH.
    by destruct (list_find (is_listed_item this elements) rest)
      as [[? ?]|].
Qed.

(** C1: [getIndexOfTarget] scans the composed path from its start.  At the
    first path element that is a list item contained in [items] (no
    earlier path element is one) it returns that element's index in
    [items]: the first position of [items] holding the element.  When no
    path element is such a list item it returns [-1]. *)
Theorem getIndexOfTarget_first_list_item (this : ListBase) (evt : Event) :
  match list_find (is_listed_item this (items this)) (composedPath evt) with
  | Some (k, p) =>
      let i := getIndexOfTarget this evt in
      composedPath evt !! k = Some p
      ∧ is_listed_item this (items this) p
      ∧ (∀ j q, composedPath evt !! j = Some q → (j < k)%nat →
                ¬ is_listed_item this (items this) q)
      ∧ i = indexOf (items this) p
      ∧ 0 ≤ i
      ∧ items this !! Z.to_nat i = Some p
      ∧ ∀ j, (j < Z.to_nat i)%nat → items this !! j ≠ Some p
  | None =>
      (∀ q, q ∈ composedPath evt → ¬ is_listed_item this (items this) q)
      ∧ getIndexOfTarget this evt = -1
  end.
Proof.
  unfold getIndexOfTarget. rewrite getIndexOfTarget_loop_find.
  destruct (list_find _ _) as [[k p]|] eqn:Hfind.
  - apply list_find_Some in Hfind as (Hk & Hp & Hfirst).
    pose proof Hp as [_ Hin].
    apply indexOf_elem, indexOf_found in Hin as (? & ? & ?).
    simpl. split_and!; [done | done | exact Hfirst | done | lia | done | done].
  - apply list_find_None in Hfind. split; [|done].
    intros q Hq. by eapply Forall_forall in Hfind.
Qed.

Lemma getIndexOfTarget_valid (this : ListBase) (evt : Event) :
  let i := getIndexOfTarget this evt in
  i = -1
  ∨ (0 ≤ i < Z.of_nat (length (items this))
     ∧ ∃ p, js_get (items this) i = Some p ∧ p ∈ composedPath evt).
Proof.
  unfold getIndexOfTarget. simpl. rewrite getIndexOfTarget_loop_find.
  destruct (list_find _ _) as [[k p]|] eqn:Hfind; [|by left].
  apply list_find_Some in Hfind as (Hk & [_ Hin] & _).
  apply indexOf_elem, indexOf_found in Hin as (? & ? & ?).
  right. split; [done|]. exists p.
  rewrite js_get_nonneg by lia. split; [done|].
  apply list_elem_of_lookup. by exists k.
Qed.

(** C9: the value of [getIndexOfTarget] is [-1] or a position [i] of
    [items], [0 <= i < items.length], whose element [items[i]] lies on the
    event's composed path. *)
Theorem getIndexOfTarget_in_range (this : ListBase) (evt : Event) :
  let i := getIndexOfTarget this evt in
  i = -1
  ∨ (0 ≤ i < Z.of_nat (length (items this))
     ∧ ∃ p, js_get (items this) i = Some p ∧ p ∈ composedPath evt).
Proof. apply getIndexOfTarget_valid. Qed.

(** ** Adapter callbacks on an absent item *)

Section absent_item.
Variables (this : ListBase) (index : Z).
Hypothesis Habsent : js_get (items this) index = None.

(** The callbacks that test the item before using it. *)
Lemma guarded_callbacks_absent (attr val className : string) (b : bool) :
  Adapter.getAttributeForElementIndex index attr this
    = Normal (Some ""%string, this)
  ∧ Adapter.setAttributeForElementIndex index attr val this
    = Normal (tt, this)
  ∧ Adapter.addClassForElementIndex index className this = Normal (tt, this)
  ∧ Adapter.focusItemAtIndex index this = Normal (tt, this)
  ∧ Adapter.hasCheckboxAtIndex index this = Normal (false, this)
  ∧ Adapter.hasRadioAtIndex index this = Normal (false, this)
  ∧ Adapter.setCheckedCheckboxOrRadioAtIndex index b this = Normal (tt, this)
  ∧ Adapter.listItemAtIndexHasClass index className this
    = Normal (false, this).
Proof using Habsent.
  unfold Adapter.getAttributeForElementIndex,
    Adapter.setAttributeForElementIndex, Adapter.addClassForElementIndex,
    Adapter.focusItemAtIndex, Adapter.hasCheckboxAtIndex,
    Adapter.hasRadioAtIndex, Adapter.setCheckedCheckboxOrRadioAtIndex,
    Adapter.listItemAtIndexHasClass, bind, gets, ret.
  destruct (mdcRoot this); simpl; rewrite ?Habsent; split_and!; reflexivity.
Qed.



End absent_item.

(** C2: on a list with no items, position [0] holds no item;
    [isCheckboxCheckedAtIndex] and [removeClassForElementIndex] fault
    there with a [TypeError] instead of returning [false] and doing
    nothing. *)
Theorem absent_item_callbacks_fault :
  js_get (items empty_list) 0 = None
  ∧ Adapter.isCheckboxCheckedAtIndex 0 empty_list = Throw TypeError
  ∧ Adapter.removeClassForElementIndex 0 "mdc-list-item--selected" empty_list
    = Throw TypeError.
Proof. split_and!; reflexivity. Qed.

(** ** Adapter callbacks without a root element *)

Section missing_root.
Variable this : ListBase.
Hypothesis Hroot : mdcRoot this = None.

Lemma guarded_callbacks_missing_root (index : Z) (attr : string) :
  Adapter.getFocusedElementIndex this = Normal (-1, this)
  ∧ Adapter.getAttributeForElementIndex index attr this
    = Normal (Some ""%string, this)
  ∧ Adapter.getListItemCount this = Normal (0, this).
Proof using Hroot.
  unfold Adapter.getFocusedElementIndex, Adapter.getAttributeForElementIndex,
    Adapter.getListItemCount, bind, gets, ret.
  by rewrite Hroot.
Qed.

Lemma isRootFocused_missing_root :
  Adapter.isRootFocused this = Throw TypeError.
Proof using Hroot.
  unfold Adapter.isRootFocused, bind, gets. by rewrite Hroot.
Qed.

End missing_root.

Lemma index_without_foundation this :
  mdcFoundation this = None → index this = Index (-1).
Proof. unfold index. by intros ->. Qed.

(** C3: before the first render the list has no root element;
    [isRootFocused] then faults with a [TypeError] on
    [mdcRoot.getRootNode()] instead of returning a boolean. *)
Theorem isRootFocused_without_root_faults :
  mdcRoot unrendered_list = None
  ∧ Adapter.isRootFocused unrendered_list = Throw TypeError.
Proof. split; reflexivity. Qed.

(** ** The surface flags and the foundation *)

Section flags.
Variables (this : ListBase) (f : Foundation.t) (v : bool).
Hypothesis Hf : mdcFoundation this = Some f.

Lemma assign_activatable_foundation :
  mdcFoundation (assign_activatable v this)
    = Some (Foundation.setUseActivatedClass v f)
  ∧ Foundation.useActivatedClass_ (Foundation.setUseActivatedClass v f) = v.
Proof using Hf.
  unfold assign_activatable, activatable_observer. simpl. by rewrite Hf.
Qed.

Lemma assign_selectable_foundation :
  mdcFoundation (assign_selectable v this)
    = Some (Foundation.setSingleSelection (negb v) f)
  ∧ Foundation.isSingleSelectionList_
      (Foundation.setSingleSelection (negb v) f) = negb v.
Proof using Hf.
  unfold assign_selectable, selectable_observer. simpl. by rewrite Hf.
Qed.

Lemma assign_wrapFocus_foundation :
  mdcFoundation (assign_wrapFocus v this)
    = Some (Foundation.setWrapFocus (negb v) f)
  ∧ Foundation.wrapFocus_ (Foundation.setWrapFocus (negb v) f) = negb v.
Proof using Hf.
  unfold assign_wrapFocus, wrapFocus_observer. simpl. by rewrite Hf.
Qed.

End flags.

(** C4: setting [wrapFocus] to [true] on a list that has its foundation
    calls [setWrapFocus(false)]: the flag reads [true] while the
    foundation's wrap-focus setting is [false]. *)
Theorem wrapFocus_flag_reaches_foundation_negated :
  ∃ f',
    mdcFoundation (assign_wrapFocus true sample_list) = Some f'
    ∧ wrapFocus (assign_wrapFocus true sample_list) = true
    ∧ Foundation.wrapFocus_ f' = false
    ∧ last (Foundation.received f') = Some (call_setWrapFocus false).
Proof. eexists. split_and!; reflexivity. Qed.

(** ** Frame lemmas for the item flag writes *)

Lemma selectUi_frame i this :
  mdcFoundation (selectUi i this) = mdcFoundation this
  ∧ dispatched (selectUi i this) = dispatched this
  ∧ items (selectUi i this) = items this.
Proof. unfold selectUi. by destruct (js_get _ _). Qed.

Lemma fold_selectUi_frame l this :
  let this' := fold_left (λ st i, selectUi i st) l this in
  mdcFoundation this' = mdcFoundation this
  ∧ dispatched this' = dispatched this
  ∧ items this' = items this.
Proof.
  revert this. induction l as [|i l IH]; intros this; simpl; [done|].
  destruct (IH (selectUi i this)) as (-> & -> & ->).
  apply selectUi_frame.
Qed.

Lemma select_with_foundation index this f :
  mdcFoundation this = Some f →
  mdcFoundation (select index this)
    = Some (Foundation.setSelectedIndex index f)
  ∧ dispatched (select index this)
    = dispatched this ++ [mkCustomEvent "selected" true true index].
Proof.
  intros Hf. unfold select. rewrite Hf.
  destruct index as [i|l]; simpl.
  - by destruct (selectUi_frame i
        (set_mdcFoundation (Some (Foundation.setSelectedIndex (Index i) f))
                           this)) as (-> & -> & _).
  - by destruct (fold_selectUi_frame l
        (set_mdcFoundation (Some (Foundation.setSelectedIndex (Indices l) f))
                           this)) as (-> & -> & _).
Qed.


(** ** The custom events *)




(** ** Selection bookkeeping *)

(** C6: with a foundation, [index] is the foundation's
    [getSelectedIndex()], and [select] hands its argument to
    [setSelectedIndex]; [selected] is [null] exactly when the index is the
    integer [-1], is [items[i]] for any other integer [i] (the item at
    that position when there is one), and is the array of the
    [items[i]] when the index is an array. *)
Theorem selection_bookkeeping_passes_through (this : ListBase) :
  (∀ f, mdcFoundation this = Some f →
        index this = Foundation.getSelectedIndex f)
  ∧ (∀ f idx, mdcFoundation this = Some f →
        mdcFoundation (select idx this)
        = Some (Foundation.setSelectedIndex idx f))
  ∧ (get_selected this = selected_null ↔ index this = Index (-1))
  ∧ (∀ i, index this = Index i → i ≠ -1 →
          get_selected this = selected_item (js_get (items this) i))
  ∧ (∀ i item, index this = Index i → 0 ≤ i →
          items this !! Z.to_nat i = Some item →
          get_selected this = selected_item (Some item))
  ∧ (∀ l, index this = Indices l →
          get_selected this
          = selected_array (map (λ i, js_get (items this) i) l)).
Proof.
  split_and!.
  - intros f Hf. unfold index. by rewrite Hf.
  - intros f idx Hf. by apply select_with_foundation with (index := idx) in Hf
      as [? _].
  - unfold get_selected. destruct (index this) as [i|l].
    + case_decide; split; try done; congruence.
    + split; done.
  - intros i Hi Hne. unfold get_selected. rewrite Hi. by case_decide.
  - intros i item Hi Hpos Hitem. unfold get_selected. rewrite Hi.
    case_decide; [lia|]. by rewrite js_get_nonneg, Hitem.
  - intros l Hl. unfold get_selected. by rewrite Hl.
Qed.

Lemma selection_bookkeeping_passes_through_witness :
  index multi_selected_list = Indices [0; 2; 7]
  ∧ get_selected multi_selected_list
    = selected_array [Some 1%nat; Some 3%nat; None]
  ∧ get_selected (select (Index 1) sample_list) = selected_item (Some 2%nat)
  ∧ get_selected sample_list = selected_null.
Proof.
  destruct (selection_bookkeeping_passes_through multi_selected_list)
    as (Hidx & _ & _ & _ & _ & Harr).
  destruct (selection_bookkeeping_passes_through
              (select (Index 1) sample_list)) as (_ & _ & _ & _ & Hitem & _).
  destruct (selection_bookkeeping_passes_through sample_list)
    as (_ & _ & Hnull & _).
  split_and!.
  - exact (Hidx _ eq_refl).
  - exact (Harr [0; 2; 7] eq_refl).
  - apply (Hitem 1 2%nat); [reflexivity | lia | reflexivity].
  - apply Hnull. reflexivity.
Defined.

(** ** The event handlers *)


(** Each of the three methods leaves its mark on an event that has not
    been touched yet, so an event that comes back with its flags as they
    were has seen none of them. *)
Lemma propagation_methods_leave_a_mark (evt : Event) :
  defaultPrevented evt = false →
  propagationStopped evt = false →
  immediatePropagationStopped evt = false →
  ¬ propagation_untouched evt (preventDefault evt)
  ∧ ¬ propagation_untouched evt (stopPropagation evt)
  ∧ ¬ propagation_untouched evt (stopImmediatePropagation evt).
Proof.
  intros Hd Hp Hi. unfold propagation_untouched. simpl.
  rewrite Hd, Hp, Hi. split_and!; intros (? & ? & ?); done.
Qed.





(** ** Rebuilding the items *)

Lemma fold_left_app_concat {A : Type} (ls : list (list A)) (acc : list A) :
  fold_left (λ listItems r, listItems ++ r) ls acc = acc ++ concat ls.
Proof.
  revert acc. induction ls as [|l ls IH]; intros acc; simpl.
  - by rewrite app_nil_r.
  - by rewrite IH, app_assoc.
Qed.

Lemma node_update_node r f this r' :
  node (update_node r f this) r'
  = if decide (r = r') then f (node this r) else node this r'.
Proof.
  unfold node, update_node. simpl. case_decide as Heq.
  - subst. apply lookup_total_insert_eq.
  - by apply lookup_total_insert_ne.
Qed.

Lemma selected_update_attribute r f this :
  (∀ n, selected (f n) = selected n) →
  same_selected this (update_node r f this).
Proof.
  intros Hf r'. rewrite node_update_node. case_decide; [|done].
  subst. apply Hf.
Qed.


(** The [forEach] of [updateItems], started at the position after the
    prefix [pre] of the items: it appends the selected positions of the
    remaining items, judged by the flags of [this0], and leaves the
    foundation, the items, the dispatched events and every [selected] flag
    as they were. *)
Lemma updateItems_forEach_spec this0 its pre rest acc this :
  its = pre ++ rest →
  same_selected this0 this →
  let r := updateItems_forEach rest (Z.of_nat (length pre)) acc this in
  r.1 = acc ++ filter (λ i, item_selected this0 its i = true)
                      (seqZ (Z.of_nat (length pre)) (Z.of_nat (length rest)))
  ∧ same_selected this0 r.2
  ∧ mdcFoundation r.2 = mdcFoundation this
  ∧ items_ r.2 = items_ this
  ∧ dispatched r.2 = dispatched this.
Proof.
  revert pre acc this.
  induction rest as [|item rest IH]; intros pre acc this Hits Hsame; simpl.
  - by rewrite app_nil_r.
  - set (this1 := if truthy_string (itemRoles this)
                  then update_node item _ this
                  else update_node item _ this).
    assert (same_selected this this1) as Hstep.
    { subst this1. destruct (truthy_string (itemRoles this));
        by apply selected_update_attribute. }
    assert (mdcFoundation this1 = mdcFoundation this
            ∧ items_ this1 = items_ this
            ∧ dispatched this1 = dispatched this) as (Hf1 & Hi1 & Hd1).
    { subst this1. by destruct (truthy_string (itemRoles this)). }
    assert (same_selected this0 this1) as Hsame1.
    { intros r. by rewrite Hstep, Hsame. }
    assert (item_selected this0 its (Z.of_nat (length pre))
            = selected (node this1 item)) as Hhere.
    { unfold item_selected. rewrite js_get_nonneg by lia.
      rewrite Nat2Z.id, Hits, list_lookup_middle by done. by rewrite Hsame1. }
    specialize (IH (pre ++ [item])
                   (if selected (node this1 item)
                    then acc ++ [Z.of_nat (length pre)] else acc) this1).
    rewrite length_app in IH. simpl in IH.
    replace (Z.of_nat (length pre + 1)) with (Z.of_nat (length pre) + 1)
      in IH by lia.
    destruct IH as (Hsel & Hsame' & Hf & Hi & Hd);
      [by rewrite <- app_assoc | done |].
    rewrite Hf, Hi, Hd. split_and!; try done.
    rewrite (seqZ_cons (Z.of_nat (length pre))) by lia. rewrite Hsel.
    replace (Z.pred (Z.of_nat (S (length rest))))
      with (Z.of_nat (length rest)) by lia.
    replace (Z.succ (Z.of_nat (length pre)))
      with (Z.of_nat (length pre) + 1) by lia.
    destruct (selected (node this1 item)) eqn:Hs.
    + rewrite filter_cons_True by done. by rewrite <- app_assoc.
    + rewrite filter_cons_False; [done|]. rewrite Hhere. congruence.
Qed.

Lemma updateItems_unfold this :
  updateItems this
  = match selected_positions this (slotted_list_items this) with
    | [] => updateItems_rebuilt this
    | [i] => select (Index i) (updateItems_rebuilt this)
    | _ => select (Indices (selected_positions this (slotted_list_items this)))
                  (updateItems_rebuilt this)
    end
  ∧ items (updateItems_rebuilt this) = slotted_list_items this
  ∧ mdcFoundation (updateItems_rebuilt this) = mdcFoundation this
  ∧ dispatched (updateItems_rebuilt this) = dispatched this.
Proof.
  unfold updateItems, updateItems_rebuilt, items.
  rewrite fold_left_app_concat. simpl.
  fold (slotted_list_items this).
  set (this1 := set_items_ (slotted_list_items this) this).
  destruct (updateItems_forEach_spec this (slotted_list_items this) []
              (slotted_list_items this) [] this1)
    as (Hsel & _ & Hf & Hi & Hd); [done | done |].
  simpl in *. change (Z.of_nat 0) with 0 in Hsel, Hf, Hi, Hd.
  fold (selected_positions this (slotted_list_items this)) in Hsel.
  destruct (updateItems_forEach (slotted_list_items this) 0 [] this1)
    as [sel this2]. simpl in *. subst sel.
  by split_and!.
Qed.


(** ** The model at work on the sample pages *)

Example getIndexOfTarget_sample :
  getIndexOfTarget sample_list sample_request = 0
  ∧ getIndexOfTarget sample_list (mkEvent [10]%nat 10%nat false false false false)
    = -1.
Proof. split; reflexivity. Qed.

Example updateItems_sample :
  items (updateItems two_selected_list) = [1; 2; 3]%nat
  ∧ index (updateItems two_selected_list) = Indices [0; 2]
  ∧ dispatched (updateItems two_selected_list)
    = [mkCustomEvent "selected" true true (Indices [0; 2])]
  ∧ getAttribute (node (updateItems two_selected_list) 2%nat) "role"
    = Some "option"%string.
Proof. split_and!; reflexivity. Qed.

Example updateItems_none_selected :
  updateItems sample_list = updateItems_rebuilt sample_list
  ∧ dispatched (updateItems sample_list) = [].
Proof. split; reflexivity. Qed.

Example isCheckboxCheckedAtIndex_present :
  Adapter.isCheckboxCheckedAtIndex 0 sample_list = Normal (false, sample_list).
Proof. reflexivity. Qed.

(** * Further properties *)

(** ** What the writes of the component leave alone *)

Lemma update_node_fields r f this :
  mdcFoundation (update_node r f this) = mdcFoundation this
  ∧ mdcRoot (update_node r f this) = mdcRoot this
  ∧ slotElement (update_node r f this) = slotElement this
  ∧ itemRoles (update_node r f this) = itemRoles this
  ∧ items (update_node r f this) = items this
  ∧ dispatched (update_node r f this) = dispatched this.
Proof. done. Qed.

Section node_property.
Context {T : Type} (Q : Node → T).

Lemma update_node_keeps r f this :
  (∀ n, Q (f n) = Q n) →
  ∀ r', Q (node (update_node r f this) r') = Q (node this r').
Proof.
  intros Hf r'. rewrite node_update_node. case_decide; [|done].
  subst. apply Hf.
Qed.

Hypothesis Hselected : ∀ v n, Q (node_set_selected v n) = Q n.

Lemma selectUi_keeps i this r' :
  Q (node (selectUi i this) r') = Q (node this r').
Proof using Hselected.
  unfold selectUi. destruct (js_get _ _); [|done].
  by apply update_node_keeps.
Qed.


Lemma fold_selectUi_keeps l this r' :
  Q (node (fold_left (λ st i, selectUi i st) l this) r') = Q (node this r').
Proof using Hselected.
  revert this. induction l as [|i l IH]; intros this; simpl; [done|].
  by rewrite IH, selectUi_keeps.
Qed.

Lemma select_keeps idx this r' :
  Q (node (select idx this) r') = Q (node this r').
Proof using Hselected.
  unfold select. destruct (mdcFoundation this) as [f|]; [|done].
  destruct idx as [i|l].
  - exact (selectUi_keeps i
             (set_mdcFoundation
                (Some (Foundation.setSelectedIndex (Index i) f)) this) r').
  - exact (fold_selectUi_keeps l
             (set_mdcFoundation
                (Some (Foundation.setSelectedIndex (Indices l) f)) this) r').
Qed.

Hypothesis Hset : ∀ val n, Q (node_setAttribute "role" val n) = Q n.
Hypothesis Hremove : ∀ n, Q (node_removeAttribute "role" n) = Q n.

Lemma updateItems_forEach_keeps rest k acc this r' :
  Q (node (updateItems_forEach rest k acc this).2 r') = Q (node this r').
Proof using Hset Hremove.
  revert k acc this. induction rest as [|item rest IH]; intros k acc this;
    simpl; [done|].
  rewrite IH.
  destruct (truthy_string (itemRoles this)); by apply update_node_keeps.
Qed.

Lemma updateItems_keeps this r' :
  Q (node (updateItems this) r') = Q (node this r').
Proof using Hselected Hset Hremove.
  destruct (updateItems_unfold this) as (-> & _).
  assert (Q (node (updateItems_rebuilt this) r') = Q (node this r')) as Hreb.
  { unfold updateItems_rebuilt. simpl. by rewrite updateItems_forEach_keeps. }
  destruct (selected_positions this (slotted_list_items this)) as [|? [|? ?]];
    by rewrite ?select_keeps.
Qed.

End node_property.

Lemma selectUi_fields i this :
  mdcRoot (selectUi i this) = mdcRoot this
  ∧ slotElement (selectUi i this) = slotElement this
  ∧ itemRoles (selectUi i this) = itemRoles this
  ∧ items (selectUi i this) = items this.
Proof. unfold selectUi. by destruct (js_get _ _). Qed.

Lemma fold_selectUi_fields l this :
  let this' := fold_left (λ st i, selectUi i st) l this in
  mdcRoot this' = mdcRoot this
  ∧ slotElement this' = slotElement this
  ∧ itemRoles this' = itemRoles this
  ∧ items this' = items this.
Proof.
  revert this. induction l as [|i l IH]; intros this; simpl; [done|].
  destruct (IH (selectUi i this)) as (-> & -> & -> & ->).
  apply selectUi_fields.
Qed.

Lemma select_fields idx this :
  mdcRoot (select idx this) = mdcRoot this
  ∧ slotElement (select idx this) = slotElement this
  ∧ itemRoles (select idx this) = itemRoles this
  ∧ items (select idx this) = items this.
Proof.
  unfold select. destruct (mdcFoundation this) as [f|]; [|done].
  destruct idx as [i|l].
  - exact (selectUi_fields i
             (set_mdcFoundation
                (Some (Foundation.setSelectedIndex (Index i) f)) this)).
  - exact (fold_selectUi_fields l
             (set_mdcFoundation
                (Some (Foundation.setSelectedIndex (Indices l) f)) this)).
Qed.

Lemma updateItems_forEach_fields rest k acc this :
  let this' := (updateItems_forEach rest k acc this).2 in
  mdcRoot this' = mdcRoot this
  ∧ slotElement this' = slotElement this
  ∧ itemRoles this' = itemRoles this.
Proof.
  revert k acc this. induction rest as [|item rest IH]; intros k acc this;
    simpl; [done|].
  destruct (IH (k + 1)
              (if selected
                    (node (if truthy_string (itemRoles this)
                           then update_node item
                                  (node_setAttribute "role"
                                     (default ""%string (itemRoles this))) this
                           else update_node item
                                  (node_removeAttribute "role") this) item)
               then acc ++ [k] else acc)
              (if truthy_string (itemRoles this)
               then update_node item
                      (node_setAttribute "role"
                         (default ""%string (itemRoles this))) this
               else update_node item (node_removeAttribute "role") this))
    as (-> & -> & ->).
  by destruct (truthy_string (itemRoles this)).
Qed.

Lemma updateItems_fields this :
  mdcRoot (updateItems this) = mdcRoot this
  ∧ slotElement (updateItems this) = slotElement this
  ∧ itemRoles (updateItems this) = itemRoles this
  ∧ items (updateItems this) = slotted_list_items this.
Proof.
  destruct (updateItems_unfold this) as (-> & Hitems & _).
  assert (mdcRoot (updateItems_rebuilt this) = mdcRoot this
          ∧ slotElement (updateItems_rebuilt this) = slotElement this
          ∧ itemRoles (updateItems_rebuilt this) = itemRoles this)
    as (Hr & Hs & Hi).
  { unfold updateItems_rebuilt. simpl.
    by destruct (updateItems_forEach_fields
                   (fold_left (λ listItems r, listItems ++ r)
                      (map (listItemResult this) (assignedElements this)) [])
                   0 [] (set_items_
                           (fold_left (λ listItems r, listItems ++ r)
                              (map (listItemResult this)
                                 (assignedElements this)) []) this))
      as (-> & -> & ->). }
  destruct (selected_positions this (slotted_list_items this)) as [|? [|? ?]];
    [done| |].
  - destruct (select_fields (Index z) (updateItems_rebuilt this))
      as (-> & -> & -> & ->). done.
  - destruct (select_fields (Indices (z :: z0 :: l))
                (updateItems_rebuilt this)) as (-> & -> & -> & ->). done.
Qed.

(** ** The items after [updateItems] *)

Lemma slotted_list_items_elem this item :
  item ∈ slotted_list_items this →
  isElement (node this item) = true
  ∧ hasAttribute (node this item) "mwc-list-item" = true.
Proof.
  unfold slotted_list_items. rewrite list_elem_of_In, in_concat.
  intros (l & Hl & Hitem). apply in_map_iff in Hl as (element & <- & Hel).
  apply list_elem_of_In in Hel, Hitem.
  unfold assignedElements in Hel.
  destruct (slotElement this) as [assigned|]; [|by apply not_elem_of_nil in Hel].
  apply list_elem_of_filter in Hel as [Helem _].
  unfold listItemResult in Hitem.
  destruct (hasAttribute (node this (treeRef element)) "mwc-list-item")
    eqn:Hattr.
  - apply list_elem_of_singleton in Hitem as ->. done.
  - unfold querySelectorAll_attr in Hitem.
    apply list_elem_of_filter in Hitem as [Hboth _].
    apply andb_True in Hboth as [? ?]. split; by apply Is_true_true.
Qed.

Lemma slotted_list_items_markup this this' :
  same_markup this this' →
  slotted_list_items this' = slotted_list_items this.
Proof.
  intros [Hslot Hnodes]. unfold slotted_list_items, assignedElements.
  rewrite Hslot. destruct (slotElement this) as [assigned|]; [|done].
  f_equal.
  rewrite (list_filter_iff
             (λ n, isNodeElement this' (treeRef n) = true)
             (λ n, isNodeElement this (treeRef n) = true)).
  2:{ intros n. unfold isNodeElement. by destruct (Hnodes (treeRef n)) as [-> _]. }
  apply map_ext. intros element. unfold listItemResult.
  destruct (Hnodes (treeRef element)) as [_ ->].
  destruct (hasAttribute (node this (treeRef element)) "mwc-list-item");
    [done|].
  unfold querySelectorAll_attr. apply list_filter_iff. intros r.
  by destruct (Hnodes r) as [-> ->].
Qed.

Lemma hasAttribute_role_write (name : string) (n : Node) (val : string) :
  name ≠ "role"%string →
  hasAttribute (node_setAttribute "role" val n) name = hasAttribute n name
  ∧ hasAttribute (node_removeAttribute "role" n) name = hasAttribute n name.
Proof.
  intros Hne. unfold hasAttribute. simpl.
  by rewrite lookup_insert_ne, lookup_delete_ne.
Qed.

Lemma updateItems_same_markup this : same_markup this (updateItems this).
Proof.
  split; [apply updateItems_fields|]. intros r. split.
  - by apply (updateItems_keeps isElement).
  - apply (updateItems_keeps (λ n, hasAttribute n "mwc-list-item")); [done|..].
    + intros val n. by apply hasAttribute_role_write.
    + intros n. by apply (hasAttribute_role_write _ n ""%string).
Qed.

(** X1: after [updateItems], every entry of [items] is an element node
    that carries the [mwc-list-item] attribute. *)
Theorem updateItems_items_are_list_items (this : ListBase) :
  Forall (λ item,
            isElement (node (updateItems this) item) = true
            ∧ hasAttribute (node (updateItems this) item) "mwc-list-item"
              = true)
         (items (updateItems this)).
Proof.
  apply Forall_forall. intros item Hitem.
  destruct (updateItems_fields this) as (_ & _ & _ & Hitems).
  rewrite Hitems in Hitem. apply slotted_list_items_elem in Hitem.
  destruct (updateItems_same_markup this) as [_ Hnodes].
  by destruct (Hnodes item) as [-> ->].
Qed.

(** X2: running [updateItems] a second time finds the same items: the
    writes of [updateItems] (the [role] attribute, the [selected] flag)
    do not change what the slot yields. *)
Theorem updateItems_items_stable (this : ListBase) :
  items (updateItems (updateItems this)) = items (updateItems this).
Proof.
  destruct (updateItems_fields (updateItems this)) as (_ & _ & _ & ->).
  destruct (updateItems_fields this) as (_ & _ & _ & ->).
  apply slotted_list_items_markup, updateItems_same_markup.
Qed.

Lemma updateItems_forEach_role rest k acc this r :
  r ∈ rest ∨ getAttribute (node this r) "role" = expected_role this →
  getAttribute (node (updateItems_forEach rest k acc this).2 r) "role"
  = expected_role this.
Proof.
  revert k acc this. induction rest as [|item rest IH]; intros k acc this Hr;
    simpl.
  - destruct Hr as [Hr|Hr]; [by apply not_elem_of_nil in Hr | done].
  - set (this1 := if truthy_string (itemRoles this)
                  then update_node item _ this
                  else update_node item _ this).
    assert (expected_role this1 = expected_role this) as Hexp.
    { subst this1. unfold expected_role.
      destruct (truthy_string (itemRoles this)) eqn:Htruthy; simpl;
        by rewrite Htruthy. }
    rewrite <- Hexp. apply IH. rewrite Hexp.
    destruct (decide (r = item)) as [->|Hne].
    + right. subst this1. unfold expected_role, getAttribute.
      destruct (itemRoles this) as [roles|] eqn:Hroles; simpl.
      * destruct (negb (String.eqb roles "")); rewrite node_update_node;
          case_decide; try done; simpl.
        -- apply lookup_insert_eq.
        -- apply lookup_delete_eq.
      * rewrite node_update_node. case_decide; [|done]. simpl.
        apply lookup_delete_eq.
    + destruct Hr as [Hr|Hr].
      * left. apply elem_of_cons in Hr as [?|?]; done.
      * right. rewrite <- Hr. subst this1.
        destruct (truthy_string (itemRoles this)); rewrite node_update_node;
          by case_decide.
Qed.

(** X3: after [updateItems], the [role] attribute of every item is
    [itemRoles] when [itemRoles] is a non-empty string, and is absent when
    [itemRoles] is [null] or empty. *)
Theorem updateItems_sets_roles (this : ListBase) :
  Forall (λ item,
            getAttribute (node (updateItems this) item) "role"
            = expected_role this)
         (items (updateItems this)).
Proof.
  apply Forall_forall. intros item Hitem.
  destruct (updateItems_fields this) as (_ & _ & _ & Hitems).
  rewrite Hitems in Hitem.
  assert (getAttribute (node (updateItems_rebuilt this) item) "role"
          = expected_role this) as Hreb.
  { unfold updateItems_rebuilt. simpl.
    rewrite fold_left_app_concat. simpl. fold (slotted_list_items this).
    apply (updateItems_forEach_role (slotted_list_items this) 0 []
             (set_items_ (slotted_list_items this) this) item).
    by left. }
  destruct (updateItems_unfold this) as (-> & _).
  destruct (selected_positions this (slotted_list_items this)) as [|? [|? ?]];
    [done| |];
    by rewrite (select_keeps (λ n, getAttribute n "role")).
Qed.

(** With no slot in the template yet, or with nothing slotted that is an
    element, [updateItems] empties [items] and does nothing else. *)
Lemma updateItems_nothing_slotted (this : ListBase) :
  assignedElements this = [] →
  updateItems this = set_items_ [] this.
Proof. intros Hnone. unfold updateItems. by rewrite Hnone. Qed.

Lemma updateItems_nothing_slotted_witness :
  updateItems unrendered_list = set_items_ [] unrendered_list.
Proof. apply updateItems_nothing_slotted. reflexivity. Defined.

(** ** The [selected] flag under [select], [selectUi] and [deselectUi] *)








(** ** The adapter on an item that is there *)

(** Run the monadic plumbing of a callback. *)
Ltac run_adapter :=
  unfold bind, gets, modify, ret, deref, throw; simpl.

Section present_item.
Variables (this : ListBase) (index : Z) (item : NodeRef).
Hypothesis Hitem : js_get (items this) index = Some item.




Lemma isCheckboxCheckedAtIndex_present_item :
  Adapter.isCheckboxCheckedAtIndex index this
  = Normal (hasAttribute (node this item) "mwc-check-list-item"
            && selected (node this item), this).
Proof using Hitem.
  unfold Adapter.isCheckboxCheckedAtIndex. run_adapter. by rewrite Hitem.
Qed.

End present_item.










(** X11: for an index that has an item, after
    [setCheckedCheckboxOrRadioAtIndex(index, isChecked)] the callback
    [isCheckboxCheckedAtIndex] answers [isChecked] when the item carries
    [mwc-check-list-item], and [false] when it does not, whatever was
    written. *)
Theorem checked_write_then_read (this : ListBase) (index : Z)
    (item : NodeRef) (isChecked : bool) :
  js_get (items this) index = Some item →
  ∃ this',
    Adapter.setCheckedCheckboxOrRadioAtIndex index isChecked this
    = Normal (tt, this')
    ∧ Adapter.isCheckboxCheckedAtIndex index this'
      = Normal (hasAttribute (node this item) "mwc-check-list-item"
                && isChecked, this').
Proof.
  intros Hitem.
  exists (update_node item (node_set_selected isChecked) this).
  split.
  - unfold Adapter.setCheckedCheckboxOrRadioAtIndex. run_adapter.
    by rewrite Hitem.
  - rewrite (isCheckboxCheckedAtIndex_present_item _ index item) by done.
    rewrite node_update_node. by case_decide.
Qed.

Lemma checked_write_then_read_witness :
  ∃ this',
    Adapter.setCheckedCheckboxOrRadioAtIndex 0 true sample_list
    = Normal (tt, this')
    ∧ Adapter.isCheckboxCheckedAtIndex 0 this' = Normal (false, this').
Proof.
  exact (checked_write_then_read sample_list 0 1%nat true eq_refl).
Defined.


(** ** The focused item *)

Lemma getFocusedElementIndex_loop_find this reversedPath :
  Adapter.getFocusedElementIndex_loop this reversedPath
  = match list_find (λ p, hasAttribute (node this p) "mwc-list-item" = true)
                    reversedPath with
    | Some (_, p) => indexOf (items this) p
    | None => -1
    end.
Proof.
  induction reversedPath as [|p rest IH]; simpl; [done|].
  destruct (hasAttribute (node this p) "mwc-list-item") eqn:Hattr.
  - by rewrite decide_True.
  - rewrite decide_False by done. rewrite IH.
    by destruct (list_find _ rest) as [[? ?]|].
Qed.

Lemma getFocusedElementIndex_value this :
  ∃ i, Adapter.getFocusedElementIndex this = Normal (i, this)
       ∧ (i = -1
          ∨ mdcRoot this ≠ None
            ∧ i = Adapter.getFocusedElementIndex_loop this
                    (reverse (deepActiveElementPath this))).
Proof.
  unfold Adapter.getFocusedElementIndex. run_adapter.
  destruct (mdcRoot this); simpl; [|by eexists; split; [|left]].
  destruct (items this); simpl; [by eexists; split; [|left]|].
  destruct (deepActiveElementPath this); simpl; [by eexists; split; [|left]|].
  eexists. split; [done|]. by right.
Qed.

(** X13: [getFocusedElementIndex] returns [-1] or a position of [items]
    whose item lies on the active-element path and carries
    [mwc-list-item]; it never faults and changes nothing. *)
Theorem getFocusedElementIndex_in_range (this : ListBase) :
  ∃ i, Adapter.getFocusedElementIndex this = Normal (i, this)
       ∧ (i = -1
          ∨ (0 ≤ i < Z.of_nat (length (items this))
             ∧ ∃ p, js_get (items this) i = Some p
                    ∧ p ∈ deepActiveElementPath this
                    ∧ hasAttribute (node this p) "mwc-list-item" = true)).
Proof.
  destruct (getFocusedElementIndex_value this) as (i & Hrun & [->|[_ Hi]]);
    [by exists (-1); split; [|left]|].
  exists i. split; [done|].
  rewrite getFocusedElementIndex_loop_find in Hi.
  destruct (list_find _ _) as [[k p]|] eqn:Hfind; [|by left].
  apply list_find_Some in Hfind as (Hk & Hattr & _).
  destruct (decide (i = -1)) as [|Hne]; [by left|]. right.
  subst i. apply indexOf_found in Hne as (? & ? & _).
  split; [done|]. exists p. rewrite js_get_nonneg by lia.
  split_and!; [done| |done].
  apply elem_of_reverse, list_elem_of_lookup. by exists k.
Qed.

Lemma getFocusedElementIndex_loop_skip this inner rest :
  Forall (λ q, hasAttribute (node this q) "mwc-list-item" = false) inner →
  Adapter.getFocusedElementIndex_loop this (reverse inner ++ rest)
  = Adapter.getFocusedElementIndex_loop this rest.
Proof.
  intros Hinner. revert rest.
  induction Hinner as [|q inner Hq _ IH]; intros rest; [done|].
  rewrite reverse_cons, <- app_assoc. simpl. rewrite IH. simpl.
  by rewrite Hq.
Qed.

(** X14: when the root exists and there are items, the innermost element
    of the active-element path that carries [mwc-list-item] alone decides
    the result: its position in [items], or [-1] when it is not one of the
    items, even if an element further out on the path is. *)
Theorem getFocusedElementIndex_innermost_marked (this : ListBase)
    (root p : NodeRef) (outer inner : list NodeRef) :
  mdcRoot this = Some root →
  items this ≠ [] →
  deepActiveElementPath this = outer ++ p :: inner →
  hasAttribute (node this p) "mwc-list-item" = true →
  Forall (λ q, hasAttribute (node this q) "mwc-list-item" = false) inner →
  Adapter.getFocusedElementIndex this = Normal (indexOf (items this) p, this).
Proof.
  intros Hroot Hitems Hpath Hattr Hinner.
  unfold Adapter.getFocusedElementIndex. run_adapter. rewrite Hroot. simpl.
  destruct (items this) as [|it its] eqn:Hits; [done|]. simpl.
  rewrite Hpath.
  destruct (outer ++ p :: inner) as [|? ?] eqn:Happ;
    [by destruct outer|]. simpl. rewrite <- Happ. do 2 f_equal.
  rewrite reverse_app, reverse_cons, <- app_assoc. simpl.
  rewrite getFocusedElementIndex_loop_skip by done. simpl.
  by rewrite Hattr, Hits.
Qed.

Lemma getFocusedElementIndex_innermost_marked_witness :
  Adapter.getFocusedElementIndex focused_list = Normal (0, focused_list).
Proof.
  apply (getFocusedElementIndex_innermost_marked focused_list 10%nat 1%nat
           [] [20%nat]); [reflexivity | discriminate | reflexivity..|].
  by repeat constructor.
Defined.

(** ** The slot handlers and [layout] *)









(** ** What the root handlers hand to the foundation *)

(** X18: each of the four handlers on the root makes at most one call on
    the foundation, and the item index that call carries is [-1] or a
    position of [items]: the foundation is never handed an index past the
    end. *)
Theorem root_handlers_pass_resolved_index (evt : Event) (this : ListBase)
    (f : Foundation.t) :
  mdcFoundation this = Some f →
  Forall (λ '(_, handler),
            ∃ evt' this' f' new,
              handler evt this = Normal (evt', this')
              ∧ mdcFoundation this' = Some f'
              ∧ Foundation.received f' = Foundation.received f ++ new
              ∧ (length new ≤ 1)%nat
              ∧ Forall (λ c, ∃ i, call_index c = Some i
                                  ∧ resolved_index (items this) i) new)
         (ul_listeners render).
Proof.
  intros Hf.
  assert (resolved_index (items this) (getIndexOfTarget this evt)) as Hres.
  { destruct (getIndexOfTarget_valid this evt) as [?|[? _]];
      [by left | by right]. }
  assert (∀ c, call_index c = Some (getIndexOfTarget this evt) →
               Forall (λ c, ∃ i, call_index c = Some i
                                 ∧ resolved_index (items this) i) [c])
    as Hone.
  { intros c Hc. repeat constructor. eauto. }
  assert (∃ evt' this' f' new,
            Normal (evt, this) = Normal (evt', this')
            ∧ mdcFoundation this' = Some f'
            ∧ Foundation.received f' = Foundation.received f ++ new
            ∧ (length new ≤ 1)%nat
            ∧ Forall (λ c, ∃ i, call_index c = Some i
                                ∧ resolved_index (items this) i) new)
    as Hidle.
  { exists evt, this, f, []. rewrite app_nil_r. split_and!; try done.
    simpl. lia. }
  simpl. repeat apply Forall_cons_2; [| | | |apply Forall_nil_2].
  - unfold onKeydown. rewrite Hf. destruct (mdcRoot this); [|done].
    do 3 eexists. eexists [_]. split_and!; [done | done | done | done |].
    by apply Hone.
  - unfold onFocusIn. rewrite Hf. destruct (mdcRoot this); [|done].
    do 3 eexists. eexists [_]. split_and!; [done | done | done | done |].
    by apply Hone.
  - unfold onFocusOut. rewrite Hf. destruct (mdcRoot this); [|done].
    do 3 eexists. eexists [_]. split_and!; [done | done | done | done |].
    by apply Hone.
  - unfold onRequestSelected. rewrite Hf. case_decide as Hi; [done|].
    destruct Hres as [?|Hrange]; [done|].
    destruct (js_get (items this) (getIndexOfTarget this evt)) as [el|]
      eqn:Hget; [|apply js_get_absent in Hget; lia].
    destruct (disabled (node this el)); [done|].
    do 3 eexists. eexists [_]. split_and!; [done | done | done | done |].
    by apply Hone.
Qed.

Lemma root_handlers_pass_resolved_index_witness :
  Forall (λ '(_, handler),
            ∃ evt' this' f' new,
              handler sample_request sample_list = Normal (evt', this')
              ∧ mdcFoundation this' = Some f'
              ∧ Foundation.received f'
                = Foundation.received sample_foundation ++ new
              ∧ (length new ≤ 1)%nat
              ∧ Forall (λ c, ∃ i, call_index c = Some i
                                  ∧ resolved_index (items sample_list) i) new)
         (ul_listeners render).
Proof.
  exact (root_handlers_pass_resolved_index sample_request sample_list
           sample_foundation eq_refl).
Defined.

(** ** [updateItems] together with the other methods *)

Lemma updateItems_item_markup this item :
  item ∈ items (updateItems this) →
  isElement (node (updateItems this) item) = true
  ∧ instanceofListItemBase (node (updateItems this) item)
    = instanceofListItemBase (node this item).
Proof.
  intros Hitem.
  destruct (updateItems_fields this) as (_ & _ & _ & Hitems).
  rewrite Hitems in Hitem. apply slotted_list_items_elem in Hitem as [Hel _].
  destruct (updateItems_same_markup this) as [_ Hnodes].
  destruct (Hnodes item) as [-> _]. split; [done|].
  by apply (updateItems_keeps instanceofListItemBase).
Qed.

Lemma focusItemAtIndex_element this index item :
  js_get (items this) index = Some item →
  isElement (node this item) = true →
  Adapter.focusItemAtIndex index this
  = Normal (tt, set_focusCalls (focusCalls this ++ [item]) this).
Proof.
  intros Hitem Hel. unfold Adapter.focusItemAtIndex. run_adapter.
  rewrite Hitem. simpl.
  unfold isNodeElement. by rewrite Hel.
Qed.

(** X19: once [updateItems] has run, [focusItemAtIndex] on any index
    that has an item calls [focus()] on that item: the items are element
    nodes, so the [isNodeElement] test never turns the call away. *)
Theorem focusItemAtIndex_after_updateItems (this : ListBase) (index : Z)
    (item : NodeRef) :
  js_get (items (updateItems this)) index = Some item →
  Adapter.focusItemAtIndex index (updateItems this)
  = Normal (tt,
            set_focusCalls (focusCalls (updateItems this) ++ [item])
                           (updateItems this)).
Proof.
  intros Hitem.
  assert (item ∈ items (updateItems this)) as Hin.
  { destruct (decide (index < 0 ∨
                      Z.of_nat (length (items (updateItems this))) ≤ index))
      as [Hout|Hrange]; [apply js_get_absent in Hout; congruence|].
    rewrite js_get_nonneg in Hitem by lia.
    apply list_elem_of_lookup. eauto. }
  apply updateItems_item_markup in Hin as [Hel _].
  by apply focusItemAtIndex_element.
Qed.

Lemma focusItemAtIndex_after_updateItems_witness :
  Adapter.focusItemAtIndex 2 (updateItems two_selected_list)
  = Normal (tt,
            set_focusCalls [3%nat] (updateItems two_selected_list)).
Proof.
  exact (focusItemAtIndex_after_updateItems two_selected_list 2 3%nat
           eq_refl).
Defined.

(** X20: once [updateItems] has run, an event that starts at a slotted
    list item which is an instance of [ListItemBase] resolves to a
    position of [items] holding that very item. *)
Theorem slotted_item_event_resolves (this : ListBase) (evt : Event)
    (p : NodeRef) (rest : list NodeRef) :
  composedPath evt = p :: rest →
  p ∈ slotted_list_items this →
  instanceofListItemBase (node this p) = true →
  let i := getIndexOfTarget (updateItems this) evt in
  0 ≤ i ∧ js_get (items (updateItems this)) i = Some p.
Proof.
  intros Hpath Hslotted Hcls. simpl.
  destruct (updateItems_fields this) as (_ & _ & _ & Hitems).
  assert (p ∈ items (updateItems this)) as Hin by by rewrite Hitems.
  unfold getIndexOfTarget. rewrite getIndexOfTarget_loop_find, Hpath. simpl.
  rewrite decide_True.
  2:{ split; [|done].
      apply updateItems_item_markup in Hin as [_ ->]. done. }
  apply indexOf_elem, indexOf_found in Hin as (? & ? & _).
  split; [lia|]. by rewrite js_get_nonneg by lia.
Qed.

Lemma slotted_item_event_resolves_witness :
  0 ≤ getIndexOfTarget (updateItems two_selected_list)
         (mkEvent [3; 4; 10]%nat 3%nat false false false false)
  ∧ js_get (items (updateItems two_selected_list))
      (getIndexOfTarget (updateItems two_selected_list)
         (mkEvent [3; 4; 10]%nat 3%nat false false false false))
    = Some 3%nat.
Proof.
  apply (slotted_item_event_resolves two_selected_list
           (mkEvent [3; 4; 10]%nat 3%nat false false false false)
           3%nat [4; 10]%nat eq_refl).
  - vm_compute. do 2 constructor 2. constructor.
  - reflexivity.
Defined.

